(** * WordTagger: the token-level classification adapter

    A shallow embedding of [flair/models/word_tagger_model.py].  The
    adapter turns a batch of sentences into the flat tensor / label list
    contract of the generic classifier and renders predictions in a
    CoNLL-style column format.

    Python objects that are shared and mutated in place (tokens) live in a
    heap that the methods thread through a small state-and-exception
    monad; the instance [self] is part of that state, so that "the
    configuration never changes" is a statement about the state. *)

From Stdlib Require Import PrimFloat Ascii String.
From stdpp Require Import base option list list_monad strings gmap fin_maps.

Local Open Scope string_scope.
Local Open Scope list_scope.

(** ** Exceptions and results *)

Inductive exn : Type :=
| TypeError
| AttributeError
| KeyError
| RuntimeError.

Inductive result (A : Type) : Type :=
| Ok (a : A)
| Raise (e : exn).
Arguments Ok {A} a.
Arguments Raise {A} e.

#[global] Instance result_ret : MRet result := λ A a, Ok a.
#[global] Instance result_bind : MBind result := λ A B f r,
  match r with
  | Ok a => f a
  | Raise e => Raise e
  end.

(** A computation over a mutable store [S] that may raise.  An exception
    does not roll the store back: what was mutated stays mutated. *)
Definition M (S A : Type) : Type := S → result A * S.

#[global] Instance M_ret {S} : MRet (M S) := λ A a s, (Ok a, s).
#[global] Instance M_bind {S} : MBind (M S) := λ A B f m s,
  match m s with
  | (Ok a, s') => f a s'
  | (Raise e, s') => (Raise e, s')
  end.

Definition liftR {S A} (r : result A) : M S A := λ s, (r, s).

(** ** Data model

    The classes of [flair.data] and [flair.embeddings] are not part of the
    sources; the records below follow the data model of the
    specification. *)

(** [flair.data.Label]: a value with a confidence. *)
Record Label : Type := mkLabel {
  value : string;
  score : float;
}.

(** [flair.data.Token]: a text span, its labels by label-type name, and
    the vectors attached to it by embedding-source name. *)
Record Token : Type := mkToken {
  text : string;
  annotation_layers : gmap string Label;
  _embeddings : gmap string (list float);
}.

(** Tokens are objects: a sentence holds references to them. *)
Definition token_ref : Type := nat.
Abbreviation Sentence := (list token_ref) (only parsing).
Definition Heap : Type := token_ref → Token.

(** A 1-D tensor is a vector, a 2-D tensor a list of rows. *)
Abbreviation Tensor1 := (list float) (only parsing).
Abbreviation Tensor2 := (list (list float)) (only parsing).

(** [flair.embeddings.TokenEmbeddings], the injected embedding provider:
    [embed] mutates the tokens of the sentences in place and may raise. *)
Record TokenEmbeddings : Type := mkTokenEmbeddings {
  embedding_length : nat;
  get_names : list string;
  embed : list Sentence → M Heap unit;
}.

(** [flair.data.Dictionary]: tag strings and their indices. *)
Record Dictionary : Type := mkDictionary {
  idx2item : list string;
  item2idx : gmap string nat;
}.

(** Values stored in a state dict or passed as keyword arguments. *)
Inductive PyObj : Type :=
| ObjNone
| ObjStr (s : string)
| ObjBool (b : bool)
| ObjFloat (x : float)
| ObjEmbeddings (e : TokenEmbeddings)
| ObjDictionary (d : Dictionary).

(** [state.get(key)]: [None] when the key is absent. *)
Definition dict_get (state : gmap string PyObj) (key : string) : PyObj :=
  default ObjNone (state !! key).

(** ** Collaborators outside this file *)

(** Modelled from the spec: [Token.get_label(label_type, zero_tag_value)]
    of [flair.data] is not part of the sources.  A token carries a mapping
    from label-type name to label; a token that lacks a label of the
    requested type yields a label carrying the zero-tag value instead of
    failing. *)
Definition get_label (tok : Token) (label_type zero_tag_value : string) : Label :=
  match annotation_layers tok !! label_type with
  | Some l => l
  | None => mkLabel zero_tag_value 1%float
  end.

(** Modelled from the spec: the value [get_label] uses for
    [zero_tag_value] when the caller passes only the label type (the
    outside value). *)
Definition zero_tag_value_default : string := "O".

(** Modelled from the spec: [Token.get_embedding(names)] of [flair.data]
    is not part of the sources.  It reads back the vectors attached under
    the given names, joined into one vector; a missing vector is a failure
    that propagates to the caller. *)
Definition get_embedding (tok : Token) (names : list string) : result Tensor1 :=
  vecs ← mapM (M := result) (λ name : string,
      match _embeddings tok !! name with
      | Some v => Ok v
      | None => Raise KeyError
      end) names;
  Ok (concat vecs).

(** [torch.stack] on 1-D tensors: the list must be non-empty and all its
    tensors of one size, otherwise it raises [RuntimeError]. *)
Definition torch_stack (tensors : list Tensor1) : result Tensor2 :=
  match tensors with
  | [] => Raise RuntimeError
  | t :: rest =>
      if forallb (λ u : Tensor1, Nat.eqb (length u) (length t)) rest
      then Ok tensors
      else Raise RuntimeError
  end.

(** ** The generic classifier base *)

(** Modelled from the spec: [flair.nn.DefaultClassifier] is not part of
    the sources.  It keeps the label dictionary, the size of the final
    embedding and its own configuration (loss weighting, decoding strategy
    and the like), by keyword name. *)
Record DefaultClassifier : Type := mkDefaultClassifier {
  label_dictionary : Dictionary;
  final_embedding_size : nat;
  classifierargs : gmap string PyObj;
}.

(** Modelled from the spec: [DefaultClassifier.__init__] is not part of
    the sources.  It stores the label dictionary it is given, together
    with the configuration delegated to it. *)
Definition super__init__ (label_dictionary : Dictionary)
    (final_embedding_size : nat) (classifierargs : gmap string PyObj) :
    result DefaultClassifier :=
  Ok (mkDefaultClassifier label_dictionary final_embedding_size classifierargs).

(** Modelled from the spec: the base classifier's [_get_state_dict] is not
    part of the sources.  It persists the base-class fields. *)
Definition super_get_state_dict (base : DefaultClassifier) : gmap string PyObj :=
  classifierargs base.

(** ** The adapter *)

(** A [WordTagger] is a [DefaultClassifier] (field [super]) with its own
    two attributes. *)
Record WordTagger : Type := mkWordTagger {
  super : DefaultClassifier;
  embeddings : TokenEmbeddings;
  tag_type : string;
}.

(** [f(a=x, **kw)] raises [TypeError] when [kw] names [a] again. *)
Definition repeats_keyword (named : list string) (kw : gmap string PyObj) : bool :=
  existsb (λ k : string, bool_decide (is_Some (kw !! k))) named.

(** [WordTagger.__init__].  [self.to(flair.device)] moves parameters to a
    device and leaves the attributes set here as they are. *)
Definition __init__ (embeddings : TokenEmbeddings) (tag_dictionary : Dictionary)
    (tag_type : string) (classifierargs : gmap string PyObj) : result WordTagger :=
  if repeats_keyword ["label_dictionary"; "final_embedding_size"] classifierargs
  then Raise TypeError
  else
    base ← super__init__ tag_dictionary (embedding_length embeddings) classifierargs;
    Ok (mkWordTagger base embeddings tag_type).

(** Calling the class with a dictionary of keywords.  The three named
    parameters of [__init__] are bound from it and the remaining keywords
    become [classifierargs]; a missing parameter is a [TypeError].  Python
    does not check the annotations of [__init__]: an object in place of
    the embeddings that has no [embedding_length] ([None] included) fails
    with [AttributeError] where [__init__] asks for it, before anything
    else happens, and any object is accepted as tag dictionary or tag type
    and stored as it is.  An instance holding such an object lies outside
    the records of this development: the answer is then [None], for a call
    that is not modelled. *)
Definition cls (kwargs : gmap string PyObj) : option (result WordTagger) :=
  match kwargs !! "embeddings", kwargs !! "tag_dictionary", kwargs !! "tag_type" with
  | Some e, Some d, Some t =>
      let rest := delete "tag_type" (delete "tag_dictionary" (delete "embeddings" kwargs)) in
      match e with
      | ObjEmbeddings e =>
          match d, t with
          | ObjDictionary d, ObjStr t => Some (__init__ e d t rest)
          | _, _ => None
          end
      | _ => Some (Raise AttributeError)
      end
  | _, _, _ => Some (Raise TypeError)
  end.

(** Modelled from the spec: the fields of a saved state that belong to the
    base classifier are the entries other than the three the adapter
    contributes. *)
Definition base_class_fields (state : gmap string PyObj) : gmap string PyObj :=
  delete "tag_type" (delete "tag_dictionary" (delete "embeddings" state)).

(** Modelled from the spec: the base classifier's
    [_init_model_with_state_dict(state, **kwargs)] is not part of the
    sources.  It reconstructs the model from the keywords it is given plus
    any base-class fields of the saved state that are not already given by
    keyword; the adapter's own three fields it leaves to the adapter. *)
Definition super_init_model_with_state_dict (state kwargs : gmap string PyObj) :
    option (result WordTagger) :=
  cls (kwargs ∪ base_class_fields state).

(** [WordTagger._init_model_with_state_dict], a class method. *)
Definition _init_model_with_state_dict (state kwargs : gmap string PyObj) :
    option (result WordTagger) :=
  if repeats_keyword ["embeddings"; "tag_dictionary"; "tag_type"] kwargs
  then Some (Raise TypeError)
  else
    super_init_model_with_state_dict state
      (<["tag_type" := dict_get state "tag_type"]>
        (<["tag_dictionary" := dict_get state "tag_dictionary"]>
          (<["embeddings" := dict_get state "embeddings"]> kwargs))).

(** The state the instance methods run in: the instance and the tokens. *)
Record State : Type := mkState {
  self : WordTagger;
  heap : Heap;
}.

Definition get_self : M State WordTagger := λ st, (Ok (self st), st).

(** Reading the object a token reference points to. *)
Definition deref (token : token_ref) : M State Token := λ st, (Ok (heap st token), st).

(** Running a collaborator that only knows the tokens. *)
Definition on_heap {A} (m : M Heap A) : M State A := λ st,
  let '(r, h) := m (heap st) in (r, mkState (self st) h).

(** [WordTagger._get_state_dict]. *)
Definition _get_state_dict : M State (gmap string PyObj) :=
  self ← get_self;
  let model_state :=
    <["tag_type" := ObjStr (tag_type self)]>
      (<["tag_dictionary" := ObjDictionary (label_dictionary (super self))]>
        (<["embeddings" := ObjEmbeddings (embeddings self)]>
          (super_get_state_dict (super self)))) in
  mret model_state.

(** [[token for sentence in sentences for token in sentence]]. *)
Definition all_tokens (sentences : list Sentence) : list token_ref :=
  sentence ← sentences; token ← sentence; [token].

(** [WordTagger._prepare_tensors]; the 1-tuple it returns is given by its
    only component. *)
Definition _prepare_tensors (sentences : list Sentence) : M State Tensor2 :=
  self ← get_self;
  on_heap (embed (embeddings self) sentences);;
  let all_tokens := all_tokens sentences in
  let names := get_names (embeddings self) in
  all_embeddings ← mapM (M := M State) (λ token : token_ref,
      tok ← deref token; liftR (get_embedding tok names)) all_tokens;
  embedded_tokens ← liftR (torch_stack all_embeddings);
  mret embedded_tokens.

(** The property [WordTagger.label_type]. *)
Definition label_type : M State string :=
  self ← get_self;
  mret (tag_type self).

(** [WordTagger._get_labels]. *)
Definition _get_labels (sentences : list Sentence) : M State (list (list string)) :=
  let all_tokens := all_tokens sentences in
  labels ← mapM (M := M State) (λ token : token_ref,
      ty ← label_type;
      tok ← deref token;
      mret [value (get_label tok ty zero_tag_value_default)]) all_tokens;
  mret labels.

(** [tokens.extend(sentence)] for each sentence, from the empty list. *)
Definition _get_prediction_data_points (sentences : list Sentence) :
    M State (list token_ref) :=
  let tokens := fold_left (λ tokens sentence, tokens ++ sentence) sentences [] in
  mret tokens.

(** A [for] loop that threads the loop-carried value [acc]. *)
Fixpoint for_each {S A B} (xs : list B) (acc : A) (body : A → B → M S A) : M S A :=
  match xs with
  | [] => mret acc
  | x :: xs => acc ← body acc x; for_each xs acc body
  end.

Definition newline : string := String "010"%char "".

(** [WordTagger._print_predictions]. *)
Definition _print_predictions (batch : list Sentence) (gold_label_type : string) :
    M State (list string) :=
  for_each batch [] (λ lines datapoint,
    lines ← for_each datapoint lines (λ lines token,
      tok ← deref token;
      let eval_line :=
        text tok +:+ " " +:+
        value (get_label tok gold_label_type "O") +:+ " " +:+
        value (get_label tok "predicted" "O") +:+ newline in
      mret (lines ++ [eval_line]));
    mret (lines ++ [newline])).

(** [call] is one use of the instance by its owner; [run_calls] performs a
    sequence of them.  A raised exception ends the call and leaves the
    state as the call left it. *)
Inductive call : Type :=
| Call_get_state_dict
| Call_prepare_tensors (sentences : list Sentence)
| Call_get_labels (sentences : list Sentence)
| Call_get_prediction_data_points (sentences : list Sentence)
| Call_label_type
| Call_print_predictions (batch : list Sentence) (gold_label_type : string).

Definition run_call (c : call) (st : State) : State :=
  match c with
  | Call_get_state_dict => (_get_state_dict st).2
  | Call_prepare_tensors sentences => (_prepare_tensors sentences st).2
  | Call_get_labels sentences => (_get_labels sentences st).2
  | Call_get_prediction_data_points sentences =>
      (_get_prediction_data_points sentences st).2
  | Call_label_type => (label_type st).2
  | Call_print_predictions batch gold_label_type =>
      (_print_predictions batch gold_label_type st).2
  end.

Definition run_calls (calls : list call) (st : State) : State :=
  fold_left (λ st c, run_call c st) calls st.

(** ** The column format, in the words of the specification *)

(** One line [text gold predicted] per token and one blank line after each
    sentence. *)
Definition conll_line (row : string * string * string) : string :=
  let '(t, g, p) := row in t +:+ " " +:+ g +:+ " " +:+ p +:+ newline.

Definition conll (rows : list (list (string * string * string))) : list string :=
  sentence ← rows; (conll_line <$> sentence) ++ [newline].

(** The number of tokens of a batch: c1 + ... + cN. *)
Definition token_count (sentences : list Sentence) : nat :=
  sum_list (length <$> sentences).

(** ** Predicates on computations *)

(** [m] returns [a] from [s] and leaves [s] as it was. *)
Definition returns {S A} (m : M S A) (s : S) (a : A) : Prop := m s = (Ok a, s).

(** [m] never assigns to the instance. *)
Definition keeps_self {A} (m : M State A) : Prop :=
  ∀ st, self (m st).2 = self st.

(** ** What the methods compute for one token *)

(** The entry [_get_labels] computes for one token. *)
Definition label_entry (st : State) (token : token_ref) : list string :=
  [value (get_label (heap st token) (tag_type (self st)) zero_tag_value_default)].

(** The three columns [_print_predictions] writes for one token. *)
Definition columns (st : State) (gold_label_type : string) (token : token_ref) :
    string * string * string :=
  let tok := heap st token in
  (text tok,
   value (get_label tok gold_label_type "O"),
   value (get_label tok "predicted" "O")).

(** ** A small batch to run the methods on *)

(** The batch [["The","cat"],["sat"]]: tokens 0 and 1 form the first
    sentence, token 2 the second. *)
Definition example_batch : list Sentence := [[0; 1]; [2]].

Definition example_text (token : token_ref) : string :=
  match token with
  | 0 => "The"
  | 1 => "cat"
  | _ => "sat"
  end.

(** "The" is tagged and predicted, "cat" is only tagged, "sat" carries no
    label at all. *)
Definition example_heap : Heap := λ token,
  match token with
  | 0 => mkToken "The"
           (<["predicted" := mkLabel "NN" 1%float]> {["pos" := mkLabel "DT" 1%float]}) ∅
  | 1 => mkToken "cat" {["pos" := mkLabel "NN" 1%float]} ∅
  | _ => mkToken "sat" ∅ ∅
  end.

(** Every token tagged and predicted as "X". *)
Definition uniform_heap : Heap := λ token,
  mkToken (example_text token)
    (<["predicted" := mkLabel "X" 1%float]> {["pos" := mkLabel "X" 1%float]}) ∅.

(** A provider with one embedding source that attaches a two-component
    vector to every token of the sentences it is given. *)
Definition example_embeddings : TokenEmbeddings :=
  mkTokenEmbeddings 2 ["glove"] (λ sentences h,
    (Ok (),
     λ token,
       if bool_decide (token ∈ concat sentences)
       then mkToken (text (h token)) (annotation_layers (h token))
              (<["glove" := [1%float; 2%float]]> (_embeddings (h token)))
       else h token)).

Definition example_dictionary : Dictionary :=
  mkDictionary ["DT"; "NN"] (<["NN" := 1]> {["DT" := 0]}).

Definition example_tagger : WordTagger :=
  mkWordTagger (mkDefaultClassifier example_dictionary 2 ∅) example_embeddings "pos".

Definition example_state : State := mkState example_tagger example_heap.

(** The tokens of the example after the provider has embedded the batch. *)
Definition embedded_heap : Heap :=
  (embed example_embeddings example_batch example_heap).2.
Definition uniform_state : State := mkState example_tagger uniform_heap.

(** The calls the witnesses below run: a training step followed by the
    rendering of the batch. *)
Definition example_calls : list call :=
  [Call_prepare_tensors example_batch; Call_get_labels example_batch;
   Call_get_prediction_data_points example_batch;
   Call_print_predictions example_batch "pos"; Call_get_state_dict].

(** * Facts about the monad *)

Section monad_facts.
Context {S : Type}.

Lemma bind_Ok {A B} (m : M S A) (k : A → M S B) s a s' :
  m s = (Ok a, s') → (m ≫= k) s = k a s'.
Proof. intros Hm. unfold mbind, M_bind. by rewrite Hm. Qed.

Lemma returns_snd {A} (m : M S A) s a : returns m s a → (m s).2 = s.
Proof. unfold returns. by intros ->. Qed.

Lemma returns_ret {A} (a : A) (s : S) : returns (mret a) s a.
Proof. reflexivity. Qed.

Lemma returns_bind {A B} (m : M S A) (k : A → M S B) s a b :
  returns m s a → returns (k a) s b → returns (m ≫= k) s b.
Proof. unfold returns. intros Hm Hk. by rewrite (bind_Ok _ _ _ _ _ Hm). Qed.

Lemma returns_mapM {A B} (f : A → M S B) (g : A → B) (l : list A) s :
  (∀ x, x ∈ l → returns (f x) s (g x)) →
  returns (mapM f l) s (g <$> l).
Proof.
  induction l as [|x l IH]; intros Hf; [reflexivity|].
  change (mapM f (x :: l)) with (y ← f x; k ← mapM f l; mret (y :: k)).
  eapply returns_bind; [apply Hf; left|].
  eapply returns_bind; [apply IH; intros; apply Hf; by right|].
  apply returns_ret.
Qed.

Lemma returns_for_each {A B} (body : A → B → M S A) (step : A → B → A)
    (xs : list B) (acc : A) s :
  (∀ acc x, x ∈ xs → returns (body acc x) s (step acc x)) →
  returns (for_each xs acc body) s (fold_left step xs acc).
Proof.
  revert acc. induction xs as [|x xs IH]; intros acc Hbody; [reflexivity|].
  simpl. eapply returns_bind; [apply Hbody; left|].
  apply IH. intros; apply Hbody; by right.
Qed.
End monad_facts.

(** * Facts about flattening *)

Lemma all_tokens_concat (sentences : list Sentence) :
  all_tokens sentences = concat sentences.
Proof.
  unfold all_tokens. induction sentences as [|s ss IH]; [reflexivity|].
  rewrite bind_cons, IH. simpl. f_equal.
  induction s as [|t s IHs]; [reflexivity|]. rewrite bind_cons, IHs. reflexivity.
Qed.

Lemma extend_concat (sentences : list Sentence) (tokens : list token_ref) :
  fold_left (λ tokens sentence, tokens ++ sentence) sentences tokens
  = tokens ++ concat sentences.
Proof.
  revert tokens. induction sentences as [|s ss IH]; intros tokens; simpl.
  - by rewrite app_nil_r.
  - by rewrite IH, app_assoc.
Qed.

Lemma length_concat_token_count (sentences : list Sentence) :
  length (concat sentences) = token_count sentences.
Proof.
  unfold token_count. induction sentences as [|s ss IH]; [reflexivity|].
  simpl. rewrite length_app, IH. reflexivity.
Qed.

Lemma token_count_0 (sentences : list Sentence) :
  token_count sentences = 0 → concat sentences = [].
Proof.
  rewrite <- length_concat_token_count. apply nil_length_inv.
Qed.

(** * What each method returns *)

Lemma returns_deref (token : token_ref) st : returns (deref token) st (heap st token).
Proof. reflexivity. Qed.

Lemma returns_label_type st : returns label_type st (tag_type (self st)).
Proof. reflexivity. Qed.

Lemma returns_get_state_dict st :
  returns _get_state_dict st
    (<["tag_type" := ObjStr (tag_type (self st))]>
      (<["tag_dictionary" := ObjDictionary (label_dictionary (super (self st)))]>
        (<["embeddings" := ObjEmbeddings (embeddings (self st))]>
          (classifierargs (super (self st)))))).
Proof. reflexivity. Qed.

Lemma returns_get_labels (sentences : list Sentence) st :
  returns (_get_labels sentences) st (label_entry st <$> concat sentences).
Proof.
  unfold _get_labels. rewrite all_tokens_concat.
  eapply returns_bind; [|apply returns_ret].
  apply returns_mapM. intros token _.
  eapply returns_bind; [apply returns_label_type|].
  eapply returns_bind; [apply returns_deref|].
  apply returns_ret.
Qed.

Lemma returns_get_prediction_data_points (sentences : list Sentence) st :
  returns (_get_prediction_data_points sentences) st (concat sentences).
Proof.
  unfold _get_prediction_data_points, returns. by rewrite extend_concat.
Qed.

Lemma append_lines {A} (line : A → string) (xs : list A) (lines : list string) :
  fold_left (λ lines x, lines ++ [line x]) xs lines = lines ++ (line <$> xs).
Proof.
  revert lines. induction xs as [|x xs IH]; intros lines; simpl.
  - by rewrite app_nil_r.
  - rewrite IH, <- app_assoc. reflexivity.
Qed.

Lemma append_sentences (st : State) (gold_label_type : string)
    (batch : list Sentence) (lines : list string) :
  fold_left (λ lines (datapoint : Sentence),
      (lines ++ (conll_line <$> (columns st gold_label_type <$> datapoint)))
        ++ [newline])
    batch lines
  = lines ++ conll ((λ sentence : Sentence, columns st gold_label_type <$> sentence)
                      <$> batch).
Proof.
  unfold conll. revert lines. induction batch as [|s batch IH]; intros lines.
  - simpl. by rewrite app_nil_r.
  - simpl fold_left. rewrite IH, fmap_cons, bind_cons, <- !app_assoc. reflexivity.
Qed.

Lemma returns_print_predictions (batch : list Sentence) (gold_label_type : string) st :
  returns (_print_predictions batch gold_label_type) st
    (conll ((λ sentence : Sentence, columns st gold_label_type <$> sentence) <$> batch)).
Proof.
  unfold _print_predictions.
  rewrite <- (app_nil_l (conll _)), <- append_sentences.
  apply (returns_for_each (S := State)). intros lines datapoint _.
  eapply returns_bind; [|apply returns_ret].
  rewrite <- list_fmap_compose, <- append_lines.
  apply (returns_for_each (S := State)). intros acc token _.
  eapply returns_bind; [apply returns_deref|]. apply returns_ret.
Qed.

(** * The instance is never assigned to *)

Lemma keeps_self_ret {A} (a : A) : keeps_self (mret a).
Proof. intros st. reflexivity. Qed.

Lemma keeps_self_liftR {A} (r : result A) : keeps_self (liftR r).
Proof. intros st. reflexivity. Qed.

Lemma keeps_self_get_self : keeps_self get_self.
Proof. intros st. reflexivity. Qed.

Lemma keeps_self_deref (token : token_ref) : keeps_self (deref token).
Proof. intros st. reflexivity. Qed.

Lemma keeps_self_on_heap {A} (m : M Heap A) : keeps_self (on_heap m).
Proof. intros st. unfold on_heap. by destruct (m (heap st)). Qed.

Lemma keeps_self_bind {A B} (m : M State A) (k : A → M State B) :
  keeps_self m → (∀ a, keeps_self (k a)) → keeps_self (m ≫= k).
Proof.
  intros Hm Hk st. unfold mbind, M_bind.
  specialize (Hm st). destruct (m st) as [[a|e] st1]; simpl in *.
  - by rewrite Hk.
  - done.
Qed.

Lemma keeps_self_mapM {A B} (f : A → M State B) (l : list A) :
  (∀ x, keeps_self (f x)) → keeps_self (mapM f l).
Proof.
  intros Hf. induction l as [|x l IH]; [apply keeps_self_ret|].
  change (mapM f (x :: l)) with (y ← f x; k ← mapM f l; mret (y :: k)).
  apply keeps_self_bind; [apply Hf|]. intros y.
  apply keeps_self_bind; [apply IH|]. intros k. apply keeps_self_ret.
Qed.

Create HintDb keeps discriminated.
#[local] Hint Resolve keeps_self_ret keeps_self_liftR keeps_self_get_self
  keeps_self_deref keeps_self_on_heap keeps_self_bind keeps_self_mapM : keeps.

Lemma keeps_self_prepare_tensors (sentences : list Sentence) :
  keeps_self (_prepare_tensors sentences).
Proof. unfold _prepare_tensors. auto 10 with keeps. Qed.

Lemma run_call_self (c : call) (st : State) : self (run_call c st) = self st.
Proof.
  destruct c; unfold run_call.
  - by rewrite (returns_snd _ _ _ (returns_get_state_dict st)).
  - apply keeps_self_prepare_tensors.
  - by rewrite (returns_snd _ _ _ (returns_get_labels sentences st)).
  - by rewrite (returns_snd _ _ _ (returns_get_prediction_data_points sentences st)).
  - by rewrite (returns_snd _ _ _ (returns_label_type st)).
  - by rewrite (returns_snd _ _ _ (returns_print_predictions batch gold_label_type st)).
Qed.

Lemma run_calls_self (calls : list call) (st : State) :
  self (run_calls calls st) = self st.
Proof.
  unfold run_calls. revert st.
  induction calls as [|c calls IH]; intros st; [reflexivity|].
  simpl. rewrite IH. apply run_call_self.
Qed.

(** * Reading the embeddings back *)

Lemma mapM_deref {B} (f : Token → result B) (l : list token_ref) (st : State) :
  mapM (M := M State) (λ token : token_ref, tok ← deref token; liftR (f tok)) l st
  = (mapM (M := result) (λ token : token_ref, f (heap st token)) l, st).
Proof.
  induction l as [|x l IH]; [reflexivity|].
  change (mapM (M := M State) ?g (x :: l))
    with (y ← g x; k ← mapM (M := M State) g l; mret (y :: k)).
  change (mapM (M := result) ?g (x :: l))
    with (y ← g x; k ← mapM (M := result) g l; mret (y :: k)).
  unfold mbind at 1, M_bind at 1. unfold mbind at 1, M_bind at 1.
  cbn [deref liftR]. destruct (f (heap st x)) as [y|e]; [|reflexivity].
  unfold mbind at 1, M_bind at 1. rewrite IH.
  cbn [mbind result_bind].
  destruct (mapM (M := result) (λ token : token_ref, f (heap st token)) l);
    reflexivity.
Qed.

Lemma mapM_result_Ok {A B} (f : A → result B) (l : list A) :
  (∀ x, x ∈ l → ∃ y, f x = Ok y) →
  ∃ k, mapM (M := result) f l = Ok k ∧ Forall2 (λ x y, f x = Ok y) l k.
Proof.
  induction l as [|x l IH]; intros Hf.
  - exists []. split; [reflexivity|constructor].
  - destruct (Hf x) as [y Hy]; [left|].
    destruct IH as (k & Hk & Hall); [intros; apply Hf; by right|].
    exists (y :: k). split; [|by constructor].
    change (mapM f (x :: l)) with (y ← f x; k ← mapM f l; mret (y :: k)).
    by rewrite Hy; simpl; rewrite Hk.
Qed.

Lemma torch_stack_Ok (tensors : list (list float)) (d : nat) :
  tensors ≠ [] → Forall (λ row, length row = d) tensors →
  torch_stack tensors = Ok tensors.
Proof.
  destruct tensors as [|t rest]; [done|]. intros _ Hall.
  apply Forall_cons in Hall as [Ht Hrest]. unfold torch_stack.
  replace (forallb _ rest) with true; [done|].
  symmetry. apply forallb_forall. intros u Hu.
  apply Nat.eqb_eq. rewrite Ht.
  rewrite Forall_forall in Hrest. apply Hrest. by apply list_elem_of_In.
Qed.

Lemma prepare_tensors_embedded (sentences : list Sentence) (st : State) (h : Heap) :
  embed (embeddings (self st)) sentences (heap st) = (Ok (), h) →
  _prepare_tensors sentences st
  = (rows ← mapM (M := result)
        (λ token : token_ref,
           get_embedding (h token) (get_names (embeddings (self st))))
        (concat sentences);
     torch_stack rows,
     mkState (self st) h).
Proof.
  intros Hembed. unfold _prepare_tensors. rewrite all_tokens_concat.
  unfold mbind at 1, M_bind at 1. cbn [get_self].
  unfold mbind at 1, M_bind at 1. unfold on_heap at 1. rewrite Hembed.
  unfold mbind at 1, M_bind at 1. rewrite mapM_deref. cbn [heap self].
  destruct (mapM _ (concat sentences)) as [rows|e]; [|reflexivity].
  unfold mbind at 1, M_bind at 1. cbn [liftR mbind result_bind].
  by destruct (torch_stack rows).
Qed.

Lemma prepare_tensors_embed_raises (sentences : list Sentence) (st : State)
    (e : exn) (h : Heap) :
  embed (embeddings (self st)) sentences (heap st) = (Raise e, h) →
  _prepare_tensors sentences st = (Raise e, mkState (self st) h).
Proof.
  intros Hembed. unfold _prepare_tensors.
  unfold mbind at 1, M_bind at 1. cbn [get_self].
  unfold mbind at 1, M_bind at 1. unfold on_heap at 1. by rewrite Hembed.
Qed.

(** * The rendering of predictions *)

Example print_predictions_example :
  (_print_predictions example_batch "pos" example_state).1
  = Ok ["The DT NN" +:+ newline; "cat NN O" +:+ newline; newline;
        "sat O O" +:+ newline; newline].
Proof. vm_compute. reflexivity. Qed.

(** C3: when the gold label and the predicted label of every token of the
    batch have the value [X], [_print_predictions] returns, for each
    sentence in turn, one line reading text, [X], [X] per token, and one
    blank line after the sentence. *)
Theorem print_predictions_uniform (batch : list Sentence)
    (gold_label_type X : string) (st : State) :
  (∀ token, token ∈ concat batch →
     ∃ g p,
       annotation_layers (heap st token) !! gold_label_type = Some g ∧ value g = X ∧
       annotation_layers (heap st token) !! "predicted" = Some p ∧ value p = X) →
  _print_predictions batch gold_label_type st
  = (Ok (conll ((λ sentence : Sentence,
                   (λ token, (text (heap st token), X, X)) <$> sentence) <$> batch)),
     st).
Proof.
  intros Hall. rewrite returns_print_predictions. do 3 f_equal.
  apply Forall_fmap_ext, Forall_forall. intros sentence Hsentence.
  apply Forall_fmap_ext, Forall_forall. intros token Htoken.
  destruct (Hall token) as (g & p & Hg & HgX & Hp & HpX).
  { apply list_elem_of_In, in_concat. exists sentence.
    split; by apply list_elem_of_In. }
  unfold columns, get_label. rewrite Hg, Hp, HgX, HpX. reflexivity.
Qed.

Lemma print_predictions_uniform_witness :
  _print_predictions example_batch "pos" uniform_state
  = (Ok ["The X X" +:+ newline; "cat X X" +:+ newline; newline;
         "sat X X" +:+ newline; newline],
     uniform_state).
Proof.
  apply (print_predictions_uniform example_batch "pos" "X" uniform_state).
  intros token _. exists (mkLabel "X" 1%float), (mkLabel "X" 1%float).
  repeat split; reflexivity.
Defined.

(** C4: in the lines [_print_predictions] returns, a token without a label
    of the gold label type has "O" in the gold column, a token without a
    "predicted" label has "O" in the predicted column, and a token with
    neither still has its line, which reads text, "O", "O". *)
Theorem print_predictions_default (batch : list Sentence)
    (gold_label_type : string) (st : State) :
  ∃ rows,
    _print_predictions batch gold_label_type st = (Ok (conll rows), st) ∧
    Forall2 (Forall2 (λ token row,
        let tok := heap st token in
        row.1.1 = text tok ∧
        (annotation_layers tok !! gold_label_type = None → row.1.2 = "O") ∧
        (annotation_layers tok !! "predicted" = None → row.2 = "O") ∧
        (annotation_layers tok !! gold_label_type = None →
         annotation_layers tok !! "predicted" = None →
         conll_line row = text tok +:+ " O O" +:+ newline)))
      batch rows.
Proof.
  eexists. split; [apply returns_print_predictions|].
  apply Forall2_fmap_r, Forall_Forall2_diag, Forall_forall. intros sentence _.
  apply Forall2_fmap_r, Forall_Forall2_diag, Forall_forall. intros token _.
  unfold columns, get_label. cbn.
  repeat split; try (intros ->; reflexivity).
  intros -> ->. reflexivity.
Qed.

(** C8: [_print_predictions] returns its lines and leaves the state it ran
    in, that is every token of the heap with its text, labels and
    vectors, exactly as it was. *)
Theorem print_predictions_frame (batch : list Sentence)
    (gold_label_type : string) (st : State) :
  ∃ lines,
    _print_predictions batch gold_label_type st = (Ok lines, st) ∧
    ∀ token, heap (_print_predictions batch gold_label_type st).2 token
             = heap st token.
Proof.
  eexists. split; [apply returns_print_predictions|].
  intros token. by rewrite (returns_snd _ _ _ (returns_print_predictions _ _ _)).
Qed.

(** * Labels, prediction targets and tensors *)

Example get_labels_example :
  (_get_labels example_batch example_state).1 = Ok [["DT"]; ["NN"]; ["O"]].
Proof. vm_compute. reflexivity. Qed.

Example flattened_order_example :
  (λ token, text (example_heap token)) <$> all_tokens example_batch
  = ["The"; "cat"; "sat"].
Proof. reflexivity. Qed.

(** C5: [_get_labels] returns a list parallel to the flattened tokens;
    entry i is a one-element list, and it holds the value of the label the
    i-th token carries under the configured label type. *)
Theorem get_labels_parallel (sentences : list Sentence) (st : State) :
  ∃ labels,
    _get_labels sentences st = (Ok labels, st) ∧
    Forall2 (λ token entry,
        ∃ v, entry = [v] ∧
          ∀ l, annotation_layers (heap st token) !! tag_type (self st) = Some l →
               v = value l)
      (concat sentences) labels.
Proof.
  eexists. split; [apply returns_get_labels|].
  apply Forall2_fmap_r, Forall_Forall2_diag, Forall_forall. intros token _.
  eexists. split; [reflexivity|].
  intros l Hl. unfold get_label. by rewrite Hl.
Qed.

(** C2: [_get_labels] does not fail on a token that lacks a label of the
    configured label type: the entry of such a token is the outside value
    "O". *)
Theorem get_labels_missing_label (sentences : list Sentence) (st : State) :
  ∃ labels,
    _get_labels sentences st = (Ok labels, st) ∧
    Forall2 (λ token entry,
        annotation_layers (heap st token) !! tag_type (self st) = None →
        entry = ["O"])
      (concat sentences) labels.
Proof.
  eexists. split; [apply returns_get_labels|].
  apply Forall2_fmap_r, Forall_Forall2_diag, Forall_forall. intros token _ Hnone.
  unfold label_entry, get_label. by rewrite Hnone.
Qed.

(** C9: on a batch without any token, [_get_labels] and
    [_get_prediction_data_points] return the empty list, and
    [_prepare_tensors] raises instead of returning a tensor: once the
    provider has embedded the batch, stacking the empty list of vectors is
    a [RuntimeError]. *)
Theorem zero_tokens (sentences : list Sentence) (st : State) :
  token_count sentences = 0 →
  _get_labels sentences st = (Ok [], st) ∧
  _get_prediction_data_points sentences st = (Ok [], st) ∧
  ∃ e st',
    _prepare_tensors sentences st = (Raise e, st') ∧
    ∀ h, embed (embeddings (self st)) sentences (heap st) = (Ok (), h) →
         e = RuntimeError ∧ st' = mkState (self st) h.
Proof.
  intros Hzero. apply token_count_0 in Hzero.
  pose proof (returns_get_labels sentences st) as Hlabels.
  pose proof (returns_get_prediction_data_points sentences st) as Hpoints.
  rewrite Hzero in Hlabels, Hpoints. do 2 (split; [done|]).
  destruct (embed (embeddings (self st)) sentences (heap st)) as [[[]|e] h] eqn:Hembed.
  - exists RuntimeError, (mkState (self st) h). split.
    + rewrite (prepare_tensors_embedded _ _ _ Hembed), Hzero. reflexivity.
    + intros h' [= <-]. done.
  - exists e, (mkState (self st) h). split.
    + apply prepare_tensors_embed_raises, Hembed.
    + intros h' [=].
Qed.

Lemma zero_tokens_witness :
  _get_labels [[]; []] example_state = (Ok [], example_state) ∧
  _get_prediction_data_points [[]; []] example_state = (Ok [], example_state) ∧
  ∃ e st',
    _prepare_tensors [[]; []] example_state = (Raise e, st') ∧
    ∀ h, embed (embeddings (self example_state)) [[]; []] (heap example_state)
         = (Ok (), h) →
         e = RuntimeError ∧ st' = mkState (self example_state) h.
Proof. apply (zero_tokens [[]; []] example_state). reflexivity. Defined.

(** C1, as the claim states it, fails on the empty batch: no tensor with
    zero rows comes back. *)
Lemma prepare_tensors_empty_batch :
  ¬ ∃ tensor,
      (_prepare_tensors [] example_state).1 = Ok tensor ∧
      length tensor = token_count [].
Proof. intros (tensor & Hret & _). vm_compute in Hret. discriminate. Qed.

(** C1, amended: for every batch [_get_labels] and
    [_get_prediction_data_points] return lists of c1 + ... + cN entries;
    when the batch has at least one token and the provider's [embed]
    succeeds and leaves every token of the batch with vectors under all of
    the provider's names, of joined length [d], [_prepare_tensors] returns
    a tensor of c1 + ... + cN rows; and the rows, the labels and the
    prediction targets all follow the same flattened order: sentence by
    sentence, token by token. *)
Theorem flattened_order (sentences : list Sentence) (st : State) :
  (∃ labels,
     _get_labels sentences st = (Ok labels, st) ∧
     length labels = token_count sentences ∧
     Forall2 (λ token entry,
         entry = [value (get_label (heap st token) (tag_type (self st))
                           zero_tag_value_default)])
       (concat sentences) labels ∧
     _get_prediction_data_points sentences st = (Ok (concat sentences), st) ∧
     length (concat sentences) = token_count sentences) ∧
  ∀ (h : Heap) (d : nat),
    0 < token_count sentences →
    embed (embeddings (self st)) sentences (heap st) = (Ok (), h) →
    (∀ token, token ∈ concat sentences →
       ∃ row, get_embedding (h token) (get_names (embeddings (self st))) = Ok row ∧
              length row = d) →
    ∃ tensor,
      _prepare_tensors sentences st = (Ok tensor, mkState (self st) h) ∧
      length tensor = token_count sentences ∧
      Forall2 (λ token row,
          get_embedding (h token) (get_names (embeddings (self st))) = Ok row)
        (concat sentences) tensor.
Proof.
  split.
  { eexists. split; [apply returns_get_labels|].
    split; [by rewrite length_fmap, length_concat_token_count|].
    split; [by apply Forall2_fmap_r, Forall_Forall2_diag, Forall_forall|].
    split; [apply returns_get_prediction_data_points|].
    apply length_concat_token_count. }
  intros h d Hpos Hembed Hvecs.
  destruct (mapM_result_Ok
    (λ token : token_ref, get_embedding (h token) (get_names (embeddings (self st))))
    (concat sentences)) as (rows & Hrows & Hall).
  { intros token Htoken. destruct (Hvecs token Htoken) as (row & Hrow & _). eauto. }
  exists rows. split; [|split].
  - rewrite (prepare_tensors_embedded _ _ _ Hembed), Hrows. cbn [mbind result_bind].
    rewrite (torch_stack_Ok rows d); [reflexivity| |].
    + intros ->. apply Forall2_length in Hall.
      rewrite length_concat_token_count in Hall. simpl in Hall. lia.
    + apply Forall_forall. intros row Hrow.
      destruct (proj1 (list_elem_of_lookup _ _) Hrow) as [i Hi].
      destruct (Forall2_lookup_r _ _ _ _ _ Hall Hi) as (token & Htoken & Hget).
      destruct (Hvecs token) as (row' & Hrow' & Hlen);
        [by eapply list_elem_of_lookup_2|].
      congruence.
  - apply Forall2_length in Hall. by rewrite <- Hall, length_concat_token_count.
  - exact Hall.
Qed.

Lemma flattened_order_witness :
  ∃ tensor,
    _prepare_tensors example_batch example_state
    = (Ok tensor, mkState example_tagger embedded_heap) ∧
    length tensor = 3 ∧
    Forall2 (λ token row, get_embedding (embedded_heap token) ["glove"] = Ok row)
      [0; 1; 2] tensor.
Proof.
  apply (proj2 (flattened_order example_batch example_state) embedded_heap 2).
  - vm_compute. lia.
  - reflexivity.
  - intros token Htoken. exists [1%float; 2%float]. split; [|reflexivity].
    unfold embedded_heap. cbn. rewrite (bool_decide_eq_true_2 _ Htoken).
    unfold get_embedding. cbn. by rewrite lookup_insert_eq.
Defined.

(** * Construction, configuration and the state dict *)

Lemma repeats_keyword_false (named : list string) (kw : gmap string PyObj) :
  repeats_keyword named kw = false → ∀ k, k ∈ named → kw !! k = None.
Proof.
  unfold repeats_keyword. intros Hnone k Hk.
  destruct (kw !! k) as [v|] eqn:Hlookup; [|reflexivity].
  assert (existsb (λ k : string, bool_decide (is_Some (kw !! k))) named = true)
    as Hsome; [|congruence].
  apply existsb_exists. exists k. split; [by apply list_elem_of_In|].
  apply bool_decide_eq_true_2. rewrite Hlookup. eauto.
Qed.

Lemma repeats_keyword_None (named : list string) (kw : gmap string PyObj) :
  (∀ k, k ∈ named → kw !! k = None) → repeats_keyword named kw = false.
Proof.
  unfold repeats_keyword. intros Hnone.
  destruct (existsb _ named) eqn:Hsome; [|reflexivity].
  apply existsb_exists in Hsome as (k & Hk & Hdec).
  apply bool_decide_eq_true_1 in Hdec as [v Hv].
  rewrite Hnone in Hv; [discriminate|by apply list_elem_of_In].
Qed.

Lemma init_Ok (e : TokenEmbeddings) (d : Dictionary) (t : string)
    (args : gmap string PyObj) (m : WordTagger) :
  __init__ e d t args = Ok m →
  m = mkWordTagger (mkDefaultClassifier d (embedding_length e) args) e t ∧
  args !! "label_dictionary" = None ∧
  args !! "final_embedding_size" = None.
Proof.
  unfold __init__.
  destruct (repeats_keyword _ args) eqn:Hrep; [discriminate|].
  intros [= <-]. split; [reflexivity|].
  split; apply (repeats_keyword_false _ _ Hrep);
    rewrite !elem_of_cons; auto.
Qed.

Lemma base_class_fields_lookup (state : gmap string PyObj) (k : string) :
  k ∉ ["embeddings"; "tag_dictionary"; "tag_type"] →
  base_class_fields state !! k = state !! k.
Proof.
  rewrite !not_elem_of_cons. intros (? & ? & ? & _).
  unfold base_class_fields. by rewrite !lookup_delete_ne.
Qed.

Lemma base_class_fields_adapter (state : gmap string PyObj) (k : string) :
  k ∈ ["embeddings"; "tag_dictionary"; "tag_type"] →
  base_class_fields state !! k = None.
Proof.
  rewrite !elem_of_cons, elem_of_nil. unfold base_class_fields.
  intros [->|[->|[->|[]]]]; by simplify_map_eq.
Qed.

(** What [_init_model_with_state_dict] amounts to when it is called
    without keywords of the caller's on a state that holds the three
    fields. *)
Lemma reload_keywords (state : gmap string PyObj) (e : TokenEmbeddings)
    (d : Dictionary) (t : string) :
  state !! "embeddings" = Some (ObjEmbeddings e) →
  state !! "tag_dictionary" = Some (ObjDictionary d) →
  state !! "tag_type" = Some (ObjStr t) →
  _init_model_with_state_dict state ∅
  = Some (__init__ e d t (base_class_fields state)).
Proof.
  intros He Hd Ht. unfold _init_model_with_state_dict.
  rewrite repeats_keyword_None; [|intros; apply lookup_empty].
  unfold super_init_model_with_state_dict, cls, dict_get.
  rewrite He, Hd, Ht. cbn [default].
  match goal with |- context [?m ∪ base_class_fields state] => set (kw := m) end.
  assert (kw !! "embeddings" = Some (ObjEmbeddings e)) as Hke
    by (subst kw; by simplify_map_eq).
  assert (kw !! "tag_dictionary" = Some (ObjDictionary d)) as Hkd
    by (subst kw; by simplify_map_eq).
  assert (kw !! "tag_type" = Some (ObjStr t)) as Hkt
    by (subst kw; by simplify_map_eq).
  rewrite (lookup_union_Some_l kw _ _ _ Hke), (lookup_union_Some_l kw _ _ _ Hkd),
    (lookup_union_Some_l kw _ _ _ Hkt).
  do 2 f_equal. apply map_eq. intros k.
  destruct (decide (k ∈ ["embeddings"; "tag_dictionary"; "tag_type"])) as [Hk|Hk].
  - rewrite (base_class_fields_adapter state k Hk).
    rewrite !elem_of_cons, elem_of_nil in Hk.
    destruct Hk as [->|[->|[->|[]]]]; by simplify_map_eq.
  - rewrite !not_elem_of_cons in Hk. destruct Hk as (? & ? & ? & _).
    rewrite !lookup_delete_ne by done.
    rewrite lookup_union_r by (subst kw; by simplify_map_eq).
    unfold base_class_fields. by rewrite !lookup_delete_ne.
Qed.

(** Without the keywords of the adapter, the base classifier's hook finds
    no embeddings to construct the model from. *)
Lemma super_reload_alone (state : gmap string PyObj) :
  super_init_model_with_state_dict state ∅ = Some (Raise TypeError).
Proof.
  unfold super_init_model_with_state_dict, cls.
  rewrite (lookup_union_r ∅) by apply lookup_empty.
  rewrite base_class_fields_adapter; [reflexivity|]. rewrite !elem_of_cons. auto.
Qed.

Example init_example :
  __init__ example_embeddings example_dictionary "pos" ∅ = Ok example_tagger.
Proof. reflexivity. Qed.

(** C6: the state dict of a constructed model holds the embedding
    provider, the tag dictionary and the tag-type name under "embeddings",
    "tag_dictionary" and "tag_type", and under every other key what the
    base classifier persists; a model built from that state dict by
    [_init_model_with_state_dict] has the same provider, dictionary and
    tag type, and its own state dict shows them again.  It is the
    adapter's hook that hands the three fields to the constructor: the
    base classifier's hook, called on the same state without them,
    raises. *)
Theorem state_dict_round_trip (e : TokenEmbeddings) (d : Dictionary) (t : string)
    (args : gmap string PyObj) (m : WordTagger) (h : Heap) :
  __init__ e d t args = Ok m →
  ∃ state,
    _get_state_dict (mkState m h) = (Ok state, mkState m h) ∧
    state !! "embeddings" = Some (ObjEmbeddings e) ∧
    state !! "tag_dictionary" = Some (ObjDictionary d) ∧
    state !! "tag_type" = Some (ObjStr t) ∧
    (∀ k, k ∉ ["embeddings"; "tag_dictionary"; "tag_type"] →
          state !! k = super_get_state_dict (super m) !! k) ∧
    super_init_model_with_state_dict state ∅ = Some (Raise TypeError) ∧
    ∃ m',
      _init_model_with_state_dict state ∅ = Some (Ok m') ∧
      embeddings m' = e ∧ label_dictionary (super m') = d ∧ tag_type m' = t ∧
      ∀ h', ∃ state',
        _get_state_dict (mkState m' h') = (Ok state', mkState m' h') ∧
        state' !! "embeddings" = state !! "embeddings" ∧
        state' !! "tag_dictionary" = state !! "tag_dictionary" ∧
        state' !! "tag_type" = state !! "tag_type".
Proof.
  intros Hinit. apply init_Ok in Hinit as (-> & Hld & Hfes).
  eexists. split; [apply returns_get_state_dict|]. cbn [self super embeddings
    tag_type label_dictionary classifierargs super_get_state_dict].
  set (state := insert (M := gmap string PyObj) "tag_type" _ _).
  assert (state !! "embeddings" = Some (ObjEmbeddings e)) as He
    by (subst state; by simplify_map_eq).
  assert (state !! "tag_dictionary" = Some (ObjDictionary d)) as Hd
    by (subst state; by simplify_map_eq).
  assert (state !! "tag_type" = Some (ObjStr t)) as Ht
    by (subst state; by simplify_map_eq).
  assert (∀ k, k ∉ ["embeddings"; "tag_dictionary"; "tag_type"] →
               state !! k = args !! k) as Hrest.
  { intros k Hk. rewrite !not_elem_of_cons in Hk.
    destruct Hk as (? & ? & ? & _). subst state.
    by rewrite !lookup_insert_ne. }
  do 4 (split; [done|]).
  split; [apply super_reload_alone|].
  eexists. split; [|split; [|split; [|split]]].
  - rewrite (reload_keywords state e d t He Hd Ht). unfold __init__.
    rewrite repeats_keyword_None; [reflexivity|].
    intros k Hk. rewrite !elem_of_cons, elem_of_nil in Hk.
    destruct Hk as [->|[->|[]]];
      (rewrite base_class_fields_lookup, Hrest
         by (rewrite !not_elem_of_cons; repeat split; [done..|apply not_elem_of_nil]));
      done.
  - reflexivity.
  - reflexivity.
  - reflexivity.
  - intros h'. eexists. split; [apply returns_get_state_dict|].
    cbn [self super embeddings tag_type label_dictionary classifierargs].
    rewrite He, Hd, Ht. by simplify_map_eq.
Qed.

Lemma state_dict_round_trip_witness :
  ∃ state,
    _get_state_dict example_state = (Ok state, example_state) ∧
    state !! "embeddings" = Some (ObjEmbeddings example_embeddings) ∧
    state !! "tag_dictionary" = Some (ObjDictionary example_dictionary) ∧
    state !! "tag_type" = Some (ObjStr "pos") ∧
    (∀ k, k ∉ ["embeddings"; "tag_dictionary"; "tag_type"] →
          state !! k = super_get_state_dict (super example_tagger) !! k) ∧
    super_init_model_with_state_dict state ∅ = Some (Raise TypeError) ∧
    ∃ m',
      _init_model_with_state_dict state ∅ = Some (Ok m') ∧
      embeddings m' = example_embeddings ∧
      label_dictionary (super m') = example_dictionary ∧
      tag_type m' = "pos" ∧
      ∀ h', ∃ state',
        _get_state_dict (mkState m' h') = (Ok state', mkState m' h') ∧
        state' !! "embeddings" = state !! "embeddings" ∧
        state' !! "tag_dictionary" = state !! "tag_dictionary" ∧
        state' !! "tag_type" = state !! "tag_type".
Proof.
  apply (state_dict_round_trip example_embeddings example_dictionary "pos" ∅
           example_tagger example_heap).
  reflexivity.
Defined.

(** C7: after a [WordTagger] has been constructed with tag-type name [t],
    [label_type] returns [t], whatever calls of the adapter's methods have
    been made on the instance in between. *)
Theorem label_type_constant (e : TokenEmbeddings) (d : Dictionary) (t : string)
    (args : gmap string PyObj) (m : WordTagger) (calls : list call) (h : Heap) :
  __init__ e d t args = Ok m →
  label_type (run_calls calls (mkState m h))
  = (Ok t, run_calls calls (mkState m h)).
Proof.
  intros Hinit. apply init_Ok in Hinit as (-> & _).
  rewrite returns_label_type, run_calls_self. reflexivity.
Qed.

Lemma label_type_constant_witness :
  label_type (run_calls example_calls example_state)
  = (Ok "pos", run_calls example_calls example_state).
Proof.
  apply (label_type_constant example_embeddings example_dictionary "pos" ∅
           example_tagger example_calls example_heap).
  reflexivity.
Defined.

(** C10: the tag dictionary given to the constructor is the instance's
    [label_dictionary], and stays so whatever calls are made; it is what
    [_get_state_dict] stores under "tag_dictionary"; and [_get_labels]
    looks labels up under the very string [label_type] returns. *)
Theorem label_dictionary_invariant (e : TokenEmbeddings) (d : Dictionary)
    (t : string) (args : gmap string PyObj) (m : WordTagger)
    (calls : list call) (h : Heap) :
  __init__ e d t args = Ok m →
  label_dictionary (super m) = d ∧
  label_dictionary (super (self (run_calls calls (mkState m h)))) = d ∧
  (∃ state,
     (_get_state_dict (run_calls calls (mkState m h))).1 = Ok state ∧
     state !! "tag_dictionary"
     = Some (ObjDictionary
               (label_dictionary (super (self (run_calls calls (mkState m h))))))) ∧
  ∀ sentences, ∃ ty,
    (label_type (run_calls calls (mkState m h))).1 = Ok ty ∧
    (_get_labels sentences (run_calls calls (mkState m h))).1
    = Ok ((λ token,
             [value (get_label (heap (run_calls calls (mkState m h)) token) ty
                       zero_tag_value_default)])
          <$> concat sentences).
Proof.
  intros Hinit. apply init_Ok in Hinit as (-> & _).
  split; [reflexivity|]. split; [by rewrite run_calls_self|]. split.
  - eexists. split; [by rewrite returns_get_state_dict|]. by simplify_map_eq.
  - intros sentences. eexists. split; [by rewrite returns_label_type|].
    by rewrite returns_get_labels.
Qed.

Lemma label_dictionary_invariant_witness :
  label_dictionary (super example_tagger) = example_dictionary ∧
  label_dictionary (super (self (run_calls example_calls example_state)))
  = example_dictionary ∧
  (∃ state,
     (_get_state_dict (run_calls example_calls example_state)).1 = Ok state ∧
     state !! "tag_dictionary"
     = Some (ObjDictionary
               (label_dictionary
                  (super (self (run_calls example_calls example_state)))))) ∧
  ∀ sentences, ∃ ty,
    (label_type (run_calls example_calls example_state)).1 = Ok ty ∧
    (_get_labels sentences (run_calls example_calls example_state)).1
    = Ok ((λ token,
             [value (get_label (heap (run_calls example_calls example_state) token)
                       ty zero_tag_value_default)])
          <$> concat sentences).
Proof.
  apply (label_dictionary_invariant example_embeddings example_dictionary "pos" ∅
           example_tagger example_calls example_heap).
  reflexivity.
Defined.

(** * Further properties of the rendering *)

Lemma conll_app (rows1 rows2 : list (list (string * string * string))) :
  conll (rows1 ++ rows2) = conll rows1 ++ conll rows2.
Proof. unfold conll. apply bind_app. Qed.

Lemma length_conll (rows : list (list (string * string * string))) :
  length (conll rows) = sum_list (length <$> rows) + length rows.
Proof.
  unfold conll. induction rows as [|r rows IH]; [reflexivity|].
  rewrite bind_cons, !length_app, length_fmap, IH. simpl.
  change (list_fmap _ _ length rows) with (length <$> rows). lia.
Qed.

Lemma conll_line_not_blank (row : string * string * string) :
  conll_line row ≠ newline.
Proof.
  destruct row as [[t g] p]. unfold conll_line, newline.
  destruct t as [|c t]; simpl; [discriminate|].
  intros [= _ Hrest]. destruct t; discriminate.
Qed.

Lemma blank_lines_conll (rows : list (list (string * string * string))) :
  length (filter (λ line, line = newline) (conll rows)) = length rows.
Proof.
  unfold conll. induction rows as [|r rows IH]; [reflexivity|].
  rewrite bind_cons, !filter_app, !length_app, IH.
  replace (filter _ (conll_line <$> r)) with (@nil string).
  - rewrite filter_cons_True by done. reflexivity.
  - induction r as [|x r IHr]; [reflexivity|].
    rewrite fmap_cons, filter_cons_False by apply conll_line_not_blank. exact IHr.
Qed.

(** X1: Rendering a batch in two parts gives the lines of the whole batch:
    [_print_predictions] of [batch1 ++ batch2] returns the lines of
    [batch1] followed by those of [batch2]. *)
Theorem print_predictions_app (batch1 batch2 : list Sentence)
    (gold_label_type : string) (st : State) :
  ∃ lines1 lines2,
    _print_predictions batch1 gold_label_type st = (Ok lines1, st) ∧
    _print_predictions batch2 gold_label_type st = (Ok lines2, st) ∧
    _print_predictions (batch1 ++ batch2) gold_label_type st
    = (Ok (lines1 ++ lines2), st).
Proof.
  do 2 eexists. do 2 (split; [apply returns_print_predictions|]).
  rewrite returns_print_predictions, fmap_app, conll_app. reflexivity.
Qed.

(** X2: [_print_predictions] returns one line per token and one more per
    sentence: c1 + ... + cN + N lines for a batch of N sentences; none for
    the empty batch. *)
Theorem print_predictions_line_count (batch : list Sentence)
    (gold_label_type : string) (st : State) :
  ∃ lines,
    _print_predictions batch gold_label_type st = (Ok lines, st) ∧
    length lines = token_count batch + length batch.
Proof.
  eexists. split; [apply returns_print_predictions|].
  rewrite length_conll, length_fmap. f_equal. unfold token_count. f_equal.
  rewrite <- list_fmap_compose. apply list_fmap_ext. intros i sentence _.
  simpl. apply length_fmap.
Qed.

(** X3: The lines [_print_predictions] returns are, sentence by sentence,
    the lines of that sentence's tokens, one per token and none of them
    blank whatever the text and the labels are, followed by one blank
    line.  So a blank line occurs exactly where a sentence ends, and there
    are as many blank lines as sentences in the batch. *)
Theorem print_predictions_blank_lines (batch : list Sentence)
    (gold_label_type : string) (st : State) :
  ∃ (lines : list string) (groups : list (list string)),
    _print_predictions batch gold_label_type st = (Ok lines, st) ∧
    lines = concat ((λ group, group ++ [newline]) <$> groups) ∧
    Forall2 (λ (sentence : Sentence) (group : list string),
        length group = length sentence ∧
        Forall (λ line, line ≠ newline) group)
      batch groups ∧
    length (filter (λ line, line = newline) lines) = length batch.
Proof.
  exists (conll ((λ sentence : Sentence, columns st gold_label_type <$> sentence)
                   <$> batch)),
    ((λ sentence : Sentence,
        conll_line <$> (columns st gold_label_type <$> sentence)) <$> batch).
  split; [apply returns_print_predictions|]. split; [|split].
  - unfold conll. induction batch as [|s batch IH]; [reflexivity|].
    rewrite !fmap_cons, bind_cons, IH. reflexivity.
  - apply Forall2_fmap_r, Forall_Forall2_diag, Forall_forall. intros sentence _.
    split; [by rewrite !length_fmap|].
    apply Forall_fmap, Forall_forall. intros row _. apply conll_line_not_blank.
  - by rewrite blank_lines_conll, length_fmap.
Qed.

(** X4: [_print_predictions] reads nothing but the text of the tokens of the
    batch and their labels under the gold label type and under
    "predicted": in two states that agree on these (other labels, the
    vectors and the instance may differ) it returns the same lines. *)
Theorem print_predictions_reads (batch : list Sentence)
    (gold_label_type : string) (st1 st2 : State) :
  (∀ token, token ∈ concat batch →
     text (heap st1 token) = text (heap st2 token) ∧
     annotation_layers (heap st1 token) !! gold_label_type
     = annotation_layers (heap st2 token) !! gold_label_type ∧
     annotation_layers (heap st1 token) !! "predicted"
     = annotation_layers (heap st2 token) !! "predicted") →
  (_print_predictions batch gold_label_type st1).1
  = (_print_predictions batch gold_label_type st2).1.
Proof.
  intros Hagree. rewrite !returns_print_predictions. cbn [fst]. do 2 f_equal.
  apply Forall_fmap_ext, Forall_forall. intros sentence Hsentence.
  apply Forall_fmap_ext, Forall_forall. intros token Htoken.
  destruct (Hagree token) as (Htext & Hgold & Hpred).
  { apply list_elem_of_In, in_concat. exists sentence.
    split; by apply list_elem_of_In. }
  unfold columns, get_label. by rewrite Htext, Hgold, Hpred.
Qed.

Lemma print_predictions_reads_witness :
  (_print_predictions example_batch "pos" example_state).1
  = (_print_predictions example_batch "pos"
       (mkState example_tagger embedded_heap)).1.
Proof.
  apply (print_predictions_reads example_batch "pos" example_state
           (mkState example_tagger embedded_heap)).
  intros token Htoken. unfold embedded_heap. cbn.
  rewrite (bool_decide_eq_true_2 _ Htoken). done.
Defined.

(** * Further properties of labels and prediction targets *)

(** X7: Labels and prediction targets of a batch given in two parts are those
    of the parts, one after the other: both lists follow the batch. *)
Theorem get_labels_app (sentences1 sentences2 : list Sentence) (st : State) :
  ∃ labels1 labels2 points1 points2,
    _get_labels sentences1 st = (Ok labels1, st) ∧
    _get_labels sentences2 st = (Ok labels2, st) ∧
    _get_labels (sentences1 ++ sentences2) st = (Ok (labels1 ++ labels2), st) ∧
    _get_prediction_data_points sentences1 st = (Ok points1, st) ∧
    _get_prediction_data_points sentences2 st = (Ok points2, st) ∧
    _get_prediction_data_points (sentences1 ++ sentences2) st
    = (Ok (points1 ++ points2), st).
Proof.
  do 4 eexists.
  do 2 (split; [apply returns_get_labels|]).
  split; [by rewrite returns_get_labels, concat_app, fmap_app|].
  do 2 (split; [apply returns_get_prediction_data_points|]).
  by rewrite returns_get_prediction_data_points, concat_app.
Qed.

(** X8: [_get_labels] reads nothing but the label each token of the batch
    carries under the configured label type: in two states with the same
    tag type whose tokens agree on that label (their text, other labels and
    vectors may differ) it returns the same list. *)
Theorem get_labels_reads (sentences : list Sentence) (st1 st2 : State) :
  tag_type (self st1) = tag_type (self st2) →
  (∀ token, token ∈ concat sentences →
     annotation_layers (heap st1 token) !! tag_type (self st1)
     = annotation_layers (heap st2 token) !! tag_type (self st1)) →
  (_get_labels sentences st1).1 = (_get_labels sentences st2).1.
Proof.
  intros Hty Hagree. rewrite !returns_get_labels. cbn [fst]. f_equal.
  apply Forall_fmap_ext, Forall_forall. intros token Htoken.
  unfold label_entry, get_label. by rewrite <- Hty, (Hagree token Htoken).
Qed.

Lemma get_labels_reads_witness :
  (_get_labels example_batch example_state).1
  = (_get_labels example_batch (_prepare_tensors example_batch example_state).2).1.
Proof.
  apply (get_labels_reads example_batch example_state
           (_prepare_tensors example_batch example_state).2).
  - reflexivity.
  - intros token Htoken.
    change (heap (_prepare_tensors example_batch example_state).2)
      with embedded_heap.
    unfold embedded_heap. cbn. rewrite (bool_decide_eq_true_2 _ Htoken). done.
Defined.

(** X10: Only [_prepare_tensors] writes: a sequence of calls of the other
    methods leaves the instance and every token as they were. *)
Theorem calls_read_only (calls : list call) (st : State) :
  Forall (λ c, ∀ sentences, c ≠ Call_prepare_tensors sentences) calls →
  run_calls calls st = st.
Proof.
  unfold run_calls. induction 1 as [|c calls Hc _ IH]; [reflexivity|].
  simpl. rewrite <- IH at 2. f_equal.
  destruct c; unfold run_call.
  - apply (returns_snd _ _ _ (returns_get_state_dict st)).
  - by destruct (Hc sentences).
  - apply (returns_snd _ _ _ (returns_get_labels _ st)).
  - apply (returns_snd _ _ _ (returns_get_prediction_data_points _ st)).
  - apply (returns_snd _ _ _ (returns_label_type st)).
  - apply (returns_snd _ _ _ (returns_print_predictions _ _ st)).
Qed.

Lemma calls_read_only_witness :
  run_calls
    [Call_get_labels example_batch; Call_print_predictions example_batch "pos";
     Call_get_prediction_data_points example_batch; Call_label_type;
     Call_get_state_dict]
    example_state
  = example_state.
Proof.
  apply calls_read_only. repeat constructor; intros sentences; discriminate.
Defined.

(** * Further properties of the tensor preparation *)

Lemma mapM_result_Forall2 {A B} (f : A → result B) (l : list A) (k : list B) :
  mapM (M := result) f l = Ok k ↔ Forall2 (λ x y, f x = Ok y) l k.
Proof.
  revert k. induction l as [|x l IH]; intros k.
  - split.
    + intros [= <-]. constructor.
    + intros Hall. by inversion Hall.
  - change (mapM f (x :: l)) with (y ← f x; k ← mapM f l; mret (y :: k)).
    split.
    + destruct (f x) as [y|e] eqn:Hx; [|discriminate]. cbn [mbind result_bind].
      destruct (mapM f l) as [k'|e] eqn:Hl; [|discriminate].
      intros [= <-]. constructor; [done|]. by apply IH.
    + intros Hall. inversion Hall as [|? y ? k' Hx Hl]; subst.
      rewrite Hx. cbn [mbind result_bind]. apply IH in Hl. by rewrite Hl.
Qed.

Lemma torch_stack_Ok_inv (tensors tensor : list (list float)) :
  torch_stack tensors = Ok tensor →
  tensor = tensors ∧ tensors ≠ [] ∧
  ∃ d, Forall (λ row, length row = d) tensors.
Proof.
  destruct tensors as [|t rest]; [discriminate|]. unfold torch_stack.
  destruct (forallb _ rest) eqn:Hall; [|discriminate].
  intros [= <-]. split; [reflexivity|]. split; [discriminate|].
  exists (length t). constructor; [reflexivity|].
  apply Forall_forall. intros u Hu.
  rewrite forallb_forall in Hall. apply Nat.eqb_eq, Hall. by apply list_elem_of_In.
Qed.

(** X11: The tokens keep what the provider did to them: after
    [_prepare_tensors], whether it returned or raised, the heap is the one
    [embed] left and the instance is unchanged; and an exception of the
    provider is the exception of [_prepare_tensors]. *)
Theorem prepare_tensors_state (sentences : list Sentence) (st : State) :
  (_prepare_tensors sentences st).2
  = mkState (self st) (embed (embeddings (self st)) sentences (heap st)).2 ∧
  ∀ e, (embed (embeddings (self st)) sentences (heap st)).1 = Raise e →
       (_prepare_tensors sentences st).1 = Raise e.
Proof.
  destruct (embed (embeddings (self st)) sentences (heap st)) as [[[]|e] h] eqn:Hembed.
  - rewrite (prepare_tensors_embedded _ _ _ Hembed). split; [reflexivity|].
    intros e [=].
  - rewrite (prepare_tensors_embed_raises _ _ _ _ Hembed). split; [reflexivity|].
    by intros e' [= <-].
Qed.

(** X12: [_prepare_tensors] returns a tensor exactly when the provider's
    [embed] succeeds, the batch has a token, and every token of the batch
    then has a vector under each of the provider's names, all of one
    joined length; the tensor holds these vectors in flattened order. *)
Theorem prepare_tensors_Ok_iff (sentences : list Sentence) (st st' : State)
    (tensor : list (list float)) :
  _prepare_tensors sentences st = (Ok tensor, st') ↔
  ∃ h,
    embed (embeddings (self st)) sentences (heap st) = (Ok (), h) ∧
    st' = mkState (self st) h ∧
    concat sentences ≠ [] ∧
    Forall2 (λ token row,
        get_embedding (h token) (get_names (embeddings (self st))) = Ok row)
      (concat sentences) tensor ∧
    ∃ d, Forall (λ row, length row = d) tensor.
Proof.
  split.
  - destruct (embed (embeddings (self st)) sentences (heap st))
      as [[[]|e] h] eqn:Hembed.
    + rewrite (prepare_tensors_embedded _ _ _ Hembed).
      destruct (mapM _ (concat sentences)) as [rows|e] eqn:Hrows;
        cbn [mbind result_bind]; [|intros [=]].
      intros [= Hstack <-].
      apply torch_stack_Ok_inv in Hstack as (-> & Hne & Hd).
      apply mapM_result_Forall2 in Hrows.
      exists h. do 2 (split; [reflexivity|]). split; [|done].
      intros Hnil. rewrite Hnil in Hrows. by inversion Hrows.
    + rewrite (prepare_tensors_embed_raises _ _ _ _ Hembed). intros [=].
  - intros (h & Hembed & -> & Hne & Hrows & d & Hd).
    rewrite (prepare_tensors_embedded _ _ _ Hembed).
    apply mapM_result_Forall2 in Hrows as Hmap. rewrite Hmap.
    cbn [mbind result_bind]. rewrite (torch_stack_Ok tensor d); [done| |done].
    intros ->. by inversion Hrows.
Qed.

(** * Reloading from an incomplete state *)



(** * How the methods fit together *)

Lemma token_lines_conll (rows : list (list (string * string * string))) :
  filter (λ line, line ≠ newline) (conll rows) = conll_line <$> concat rows.
Proof.
  unfold conll. induction rows as [|r rows IH]; [reflexivity|].
  rewrite bind_cons, !filter_app, IH. simpl concat. rewrite fmap_app.
  rewrite filter_cons_False by (intros Hne; by apply Hne).
  rewrite filter_nil, app_nil_r. f_equal.
  induction r as [|x r IHr]; [reflexivity|].
  rewrite fmap_cons, filter_cons_True by apply conll_line_not_blank.
  by rewrite IHr.
Qed.

(** X5: The lines of [_print_predictions] that are not blank are, in order,
    the lines of the prediction targets [_get_prediction_data_points]
    returns for the same batch: the i-th such line describes the i-th
    target. *)
Theorem print_predictions_follows_targets (batch : list Sentence)
    (gold_label_type : string) (st : State) :
  ∃ lines points,
    _print_predictions batch gold_label_type st = (Ok lines, st) ∧
    _get_prediction_data_points batch st = (Ok points, st) ∧
    filter (λ line, line ≠ newline) lines
    = (λ token,
         text (heap st token) +:+ " " +:+
         value (get_label (heap st token) gold_label_type "O") +:+ " " +:+
         value (get_label (heap st token) "predicted" "O") +:+ newline)
      <$> points.
Proof.
  do 2 eexists. split; [apply returns_print_predictions|].
  split; [apply returns_get_prediction_data_points|].
  rewrite token_lines_conll. induction batch as [|s batch IH]; [reflexivity|].
  rewrite fmap_cons. simpl concat. rewrite !fmap_app, IH. f_equal.
  by rewrite <- list_fmap_compose.
Qed.

(** X6: Rendered under the gold label type "predicted", every token line shows
    the same value in its gold and in its predicted column. *)
Theorem print_predictions_gold_predicted (batch : list Sentence) (st : State) :
  ∃ rows,
    _print_predictions batch "predicted" st = (Ok (conll rows), st) ∧
    Forall (Forall (λ row : string * string * string, row.1.2 = row.2)) rows.
Proof.
  eexists. split; [apply returns_print_predictions|].
  apply Forall_fmap, Forall_forall. intros sentence _.
  apply Forall_fmap, Forall_forall. intros token _. reflexivity.
Qed.

(** X9: When the provider's [embed] leaves the labels of the tokens of the
    batch as they are, [_get_labels] returns the same list after
    [_prepare_tensors] as before it, also when [_prepare_tensors]
    raised. *)
Theorem get_labels_after_prepare_tensors (sentences : list Sentence) (st : State) :
  (∀ token, token ∈ concat sentences →
     annotation_layers
       ((embed (embeddings (self st)) sentences (heap st)).2 token)
     = annotation_layers (heap st token)) →
  (_get_labels sentences (_prepare_tensors sentences st).2).1
  = (_get_labels sentences st).1.
Proof.
  intros Hkeeps. rewrite !returns_get_labels. cbn [fst]. f_equal.
  apply Forall_fmap_ext, Forall_forall. intros token Htoken.
  unfold label_entry. rewrite keeps_self_prepare_tensors.
  replace (heap (_prepare_tensors sentences st).2)
    with (embed (embeddings (self st)) sentences (heap st)).2.
  - unfold get_label. by rewrite (Hkeeps token Htoken).
  - destruct (embed (embeddings (self st)) sentences (heap st))
      as [[[]|e] h] eqn:Hembed.
    + by rewrite (prepare_tensors_embedded _ _ _ Hembed).
    + by rewrite (prepare_tensors_embed_raises _ _ _ _ Hembed).
Qed.

Lemma get_labels_after_prepare_tensors_witness :
  (_get_labels example_batch (_prepare_tensors example_batch example_state).2).1
  = (_get_labels example_batch example_state).1.
Proof.
  apply (get_labels_after_prepare_tensors example_batch example_state).
  intros token Htoken. cbn. rewrite (bool_decide_eq_true_2 _ Htoken). done.
Defined.
